(** * disgoreact: reaction watchers for Discord messages

    A shallow embedding of [disgoreact.go] (package [disgoreact]) and the
    properties of its four functions: [NewWatcher], [Add], [watcher], [poll].

    The package talks to Discord through [*discordgo.Session] and to its
    caller through the two callbacks of an [Option].  Both are outside the
    package, so the embedding keeps them as observable events: every function
    with effects runs in the monad [M], which threads the trace of the calls
    made so far (oldest first) and can end in a nil-pointer panic.  What
    Discord answers to a call is given by an arbitrary [Discord] record whose
    replies may depend on the whole trace, so a statement proved for every
    [Discord] holds whatever the service, the other goroutines and the users
    of the channel do in between.

    The two timers of [watcher] ([time.After] and [time.Tick]) are replaced
    by the sequence of channels its [select] receives from: a list of
    [Wakeup]s.  A goroutine started with [go] is the event [GoWatcher]; the
    goroutine itself is a separate run of [watcher] with a trace of its own. *)

From Stdlib Require Import List String ZArith Bool Arith Lia.
Import ListNotations.
Open Scope string_scope.
Open Scope list_scope.
Open Scope Z_scope.

(** ** External data (package discordgo) *)

(** A Go pointer: [None] is nil. *)
Definition ptr (A : Type) : Type := option A.

Module discordgo.

(** [discordgo.User].  The package reads [ID] and compares whole values with
    [discordgo.User{}]; [Username] and [Bot] stand for the remaining
    (comparable) fields of the struct. *)
Record User : Type := mkUser
  { ID : string;
    Username : string;
    Bot : bool }.

(** [discordgo.Message]: the two fields the package reads
    ([Message.ID] is [Message_ID] here, [User.ID] keeps the name [ID]). *)
Record Message : Type := mkMessage
  { Message_ID : string;
    ChannelID : string }.

(** [discordgo.Session]: the only state read is [ses.State.User.ID], the
    identity of the bot account. *)
Record Session : Type := mkSession
  { State_User_ID : string }.

End discordgo.
Import discordgo.

(** [discordgo.User{}] *)
Definition zeroUser : discordgo.User :=
  {| ID := ""; Username := ""; Bot := false |}.

(** [a == b] on [discordgo.User] values. *)
Definition User_eqb (a b : discordgo.User) : bool :=
  String.eqb (ID a) (ID b) && String.eqb (Username a) (Username b)
  && Bool.eqb (Bot a) (Bot b).

(** Go's [error]: an error made by [fmt.Errorf] in this package (format
    string and arguments kept apart), or one returned by a discordgo call.
    A nil error is [None]. *)
Inductive error : Type :=
| Errorf (format : string) (args : list string)
| ServiceError (code : nat).

(** ** The package's own types *)

(** A caller-supplied function value, known by its name only. *)
Definition func : Type := string.

(** [interface{}]: nil or some value, of which only a tag is kept. *)
Definition any : Type := option string.

Record WatchContext : Type := mkWatchContext
  { Message : ptr discordgo.Message;
    Session : ptr discordgo.Session;
    TickRate : Z;
    Data : any }.

(** [WatchContext{}] *)
Definition zeroWatchContext : WatchContext :=
  {| Message := None; Session := None; TickRate := 0; Data := None |}.

Record Option : Type := mkOption
  { Emoji : string;
    OnSucess : func;
    OnError : func;
    ReactionLimit : Z;
    Expiration : Z }.

(** ** Observable events and the effect monad *)

Inductive Event : Type :=
| ReactionAdd (chID msID emoji : string)
| Reactions (chID msID emoji : string) (limit : Z)
| ReactionRemove (chID msID emoji userID : string)
| ReactionsRemoveAll (chID msID : string)
| CallOnSucess (f : func) (user : discordgo.User) (ctx : WatchContext)
| CallOnError (f : func) (err : error) (ctx : WatchContext)
| GoWatcher (ctx : WatchContext) (opt : Option).

Definition Trace : Type := list Event.

(** What Discord answers to each call, given the trace before the call. *)
Record Discord : Type := mkDiscord
  { reply_ReactionAdd : Trace -> string -> string -> string -> option error;
    reply_Reactions :
      Trace -> string -> string -> string -> Z ->
      list discordgo.User * option error;
    reply_ReactionRemove :
      Trace -> string -> string -> string -> string -> option error;
    reply_ReactionsRemoveAll : Trace -> string -> string -> option error }.

Inductive Outcome (A : Type) : Type :=
| Val (a : A)
| Panic.
Arguments Val {A} a.
Arguments Panic {A}.

Definition M (A : Type) : Type := Trace -> Outcome A * Trace.

Definition ret {A : Type} (a : A) : M A := fun h => (Val a, h).

Definition bind {A B : Type} (m : M A) (k : A -> M B) : M B :=
  fun h =>
    match m h with
    | (Val a, h') => k a h'
    | (Panic, h') => (Panic, h')
    end.

Definition emit (e : Event) : M unit := fun h => (Val tt, h ++ [e]).

(** Reading through a pointer: nil panics. *)
Definition deref {A : Type} (p : ptr A) : M A :=
  fun h =>
    match p with
    | Some a => (Val a, h)
    | None => (Panic, h)
    end.

Declare Scope go_scope.
Delimit Scope go_scope with go.
Notation "x <- c ;; k" := (bind c (fun x => k))
  (at level 61, c at next level, right associativity) : go_scope.
Notation "c ;; k" := (bind c (fun _ => k))
  (at level 61, right associativity) : go_scope.
Open Scope go_scope.

(** Counting events of one kind in a trace. *)
Definition count (p : Event -> bool) (t : Trace) : nat :=
  List.length (List.filter p t).

Definition is_poll (e : Event) : bool :=
  match e with Reactions _ _ _ _ => true | _ => false end.
Definition is_ReactionRemove (e : Event) : bool :=
  match e with ReactionRemove _ _ _ _ => true | _ => false end.
Definition is_RemoveAll (e : Event) : bool :=
  match e with ReactionsRemoveAll _ _ => true | _ => false end.
Definition is_OnSucess (e : Event) : bool :=
  match e with CallOnSucess _ _ _ => true | _ => false end.
Definition is_OnError (e : Event) : bool :=
  match e with CallOnError _ _ _ => true | _ => false end.
Definition is_GoWatcher (e : Event) : bool :=
  match e with GoWatcher _ _ => true | _ => false end.
Definition is_ReactionAdd (e : Event) : bool :=
  match e with ReactionAdd _ _ _ => true | _ => false end.

(** ** The program *)

(** [NewWatcher]: no call to Discord, no goroutine, so a pure function.  The
    first component is the returned [*WatchContext]. *)
Definition NewWatcher (message : ptr discordgo.Message)
    (session : ptr discordgo.Session)
    (tickRate : Z) (data : any) : ptr WatchContext * option error :=
  if tickRate =? 0 then
    (Some zeroWatchContext,
     Some (Errorf "no tickrate specified (cannot be 0)" []))
  else
    (Some {| Message := message; Session := session;
             TickRate := tickRate; Data := data |},
     None).

(** The select of [watcher] received from [expiration] or from [tick]. *)
Inductive Wakeup : Type :=
| FromExpiration
| FromTick.

(** How one iteration of the [for] of [watcher] ends. *)
Inductive Flow : Type :=
| Continue (expired : bool)
| Return.

(** Where [watcher] is once the wakeups given to it are used up: blocked in
    its [select] with the current [expired] flag, or returned. *)
Inductive WatcherState : Type :=
| Selecting (expired : bool)
| Returned.

Section Program.

Variable discord : Discord.

(** Methods of [*discordgo.Session]: the call is logged and Discord's
    reply returned. *)
Definition MessageReactionAdd (ses : discordgo.Session)
    (chID msID emoji : string) : M (option error) :=
  fun h => (Val (reply_ReactionAdd discord h chID msID emoji),
            h ++ [ReactionAdd chID msID emoji]).

Definition MessageReactions (ses : discordgo.Session)
    (chID msID emoji : string) (limit : Z)
    : M (list discordgo.User * option error) :=
  fun h => (Val (reply_Reactions discord h chID msID emoji limit),
            h ++ [Reactions chID msID emoji limit]).

Definition MessageReactionRemove (ses : discordgo.Session)
    (chID msID emoji userID : string) : M (option error) :=
  fun h => (Val (reply_ReactionRemove discord h chID msID emoji userID),
            h ++ [ReactionRemove chID msID emoji userID]).

Definition MessageReactionsRemoveAll (ses : discordgo.Session)
    (chID msID : string) : M (option error) :=
  fun h => (Val (reply_ReactionsRemoveAll discord h chID msID),
            h ++ [ReactionsRemoveAll chID msID]).

(** The [for _, u := range users] of [poll]. *)
Fixpoint poll_range (ses : discordgo.Session) (chID msID : string)
    (opt : Option) (users : list discordgo.User)
    : M (discordgo.User * option error) :=
  match users with
  | [] => ret (zeroUser, None)
  | u :: rest =>
      if String.eqb (ID u) (State_User_ID ses) then
        poll_range ses chID msID opt rest
      else
        err <- MessageReactionRemove ses chID msID (Emoji opt) (ID u) ;;
        match err with
        | Some e => ret (zeroUser, Some e)
        | None => ret (u, None)
        end
  end.

Definition poll (ses : discordgo.Session) (chID msID : string) (opt : Option)
    : M (discordgo.User * option error) :=
  r <- MessageReactions ses chID msID (Emoji opt) (ReactionLimit opt) ;;
  match snd r with
  | Some e => ret (zeroUser, Some e)
  | None =>
      if (1 <=? List.length (fst r))%nat then
        poll_range ses chID msID opt (fst r)
      else ret (zeroUser, None)
  end.

(** One iteration of the [for { select { ... } }] of [watcher]. *)
Definition watcher_iter (ctx : WatchContext) (opt : Option)
    (expired : bool) (w : Wakeup) : M Flow :=
  match w with
  | FromExpiration => ret (Continue true)
  | FromTick =>
      if expired then
        ses <- deref (Session ctx) ;;
        msg <- deref (Message ctx) ;;
        MessageReactionsRemoveAll ses (ChannelID msg) (Message_ID msg) ;;
        ret Return
      else
        ses <- deref (Session ctx) ;;
        msg <- deref (Message ctx) ;;
        r <- poll ses (ChannelID msg) (Message_ID msg) opt ;;
        match snd r with
        | Some err =>
            emit (CallOnError (OnError opt) err ctx) ;;
            ret Return
        | None =>
            if negb (User_eqb zeroUser (fst r)) then
              emit (CallOnSucess (OnSucess opt) (fst r) ctx) ;;
              ret (Continue expired)
            else ret (Continue expired)
        end
  end.

Fixpoint watcher_loop (ctx : WatchContext) (opt : Option) (expired : bool)
    (wakeups : list Wakeup) : M WatcherState :=
  match wakeups with
  | [] => ret (Selecting expired)
  | w :: rest =>
      f <- watcher_iter ctx opt expired w ;;
      match f with
      | Continue expired' => watcher_loop ctx opt expired' rest
      | Return => ret Returned
      end
  end.

(** [watcher]: [expired := false], then the loop. *)
Definition watcher (ctx : WatchContext) (opt : Option)
    (wakeups : list Wakeup) : M WatcherState :=
  watcher_loop ctx opt false wakeups.

(** The [for _, v := range options] of [Add]. *)
Fixpoint Add_range (ctx : WatchContext) (options : list Option)
    : M (option error) :=
  match options with
  | [] => ret None
  | v :: rest =>
      ses <- deref (Session ctx) ;;
      msg <- deref (Message ctx) ;;
      err <- MessageReactionAdd ses (ChannelID msg) (Message_ID msg)
               (Emoji v) ;;
      match err with
      | Some _ =>
          ret (Some (Errorf
            "can't add reaction to message %q. Was that a unicode emoji?"
            [Message_ID msg]))
      | None =>
          emit (GoWatcher ctx v) ;;
          Add_range ctx rest
      end
  end.

Definition Add (ctx : WatchContext) (options : list Option)
    : M (option error) :=
  if (List.length options =? 0)%nat then
    ret (Some (Errorf "no emoji options specified" []))
  else Add_range ctx options.

End Program.

(** The reactor is the bot itself: [u.ID == ses.State.User.ID]. *)
Definition is_self (ses : discordgo.Session) (u : discordgo.User) : Prop :=
  ID u = State_User_ID ses.

(** The events [Add] leaves behind for the options it got through: for each,
    in order, the reaction attached and then the goroutine started. *)
Definition launched (ctx : WatchContext) (msg : discordgo.Message)
    (done : list Option) : Trace :=
  flat_map
    (fun v => [ReactionAdd (ChannelID msg) (Message_ID msg) (Emoji v);
               GoWatcher ctx v])
    done.

(** Number of ticks among the wakeups of a watcher. *)
Definition ticks (wakeups : list Wakeup) : nat :=
  List.length
    (List.filter
       (fun w => match w with FromTick => true | FromExpiration => false end)
       wakeups).

(** The events a watcher of [opt] on [ctx] (message [msg], session [ses])
    is entitled to: calls on its own message, listings and removals on its
    own emoji, no removal of the bot's reaction, its own callbacks with its
    own context, [OnSucess] for a user that is neither the bot nor the zero
    user; no reaction attached and no goroutine started. *)
Definition watcher_event (ctx : WatchContext) (opt : Option)
    (ses : discordgo.Session) (msg : discordgo.Message) (e : Event) : Prop :=
  match e with
  | Reactions c m em l =>
      c = ChannelID msg /\ m = Message_ID msg /\ em = Emoji opt /\
      l = ReactionLimit opt
  | ReactionRemove c m em uid =>
      c = ChannelID msg /\ m = Message_ID msg /\ em = Emoji opt /\
      uid <> State_User_ID ses
  | ReactionsRemoveAll c m => c = ChannelID msg /\ m = Message_ID msg
  | CallOnSucess f u c =>
      f = OnSucess opt /\ c = ctx /\ u <> zeroUser /\
      ID u <> State_User_ID ses
  | CallOnError f _ c => f = OnError opt /\ c = ctx
  | ReactionAdd _ _ _ => False
  | GoWatcher _ _ => False
  end.

(** ** Concrete inputs *)

Module Sample.

Definition bot : discordgo.User :=
  {| ID := "100"; Username := "reactbot"; Bot := true |}.
Definition userA : discordgo.User :=
  {| ID := "201"; Username := "alice"; Bot := false |}.
Definition userB : discordgo.User :=
  {| ID := "202"; Username := "bob"; Bot := false |}.

Definition ses : discordgo.Session := {| State_User_ID := "100" |}.
Definition msg : discordgo.Message :=
  {| Message_ID := "m1"; ChannelID := "c1" |}.

Definition ctx : WatchContext :=
  {| Message := Some msg; Session := Some ses; TickRate := 1000;
     Data := None |}.

Definition yes : Option :=
  {| Emoji := "Y"; OnSucess := "onYes"; OnError := "onYesErr";
     ReactionLimit := 10; Expiration := 2500 |}.
Definition no : Option :=
  {| Emoji := "N"; OnSucess := "onNo"; OnError := "onNoErr";
     ReactionLimit := 10; Expiration := 2500 |}.
Definition bad : Option :=
  {| Emoji := "not-an-emoji"; OnSucess := "onBad"; OnError := "onBadErr";
     ReactionLimit := 10; Expiration := 2500 |}.

(** A service that always gives the same answers; attaching a reaction
    fails for the emoji of [bad] only. *)
Definition steady (reactors : list discordgo.User * option error)
    (remove removeAll : option error) : Discord :=
  {| reply_ReactionAdd := fun _ _ _ emoji =>
       if String.eqb emoji (Emoji bad) then Some (ServiceError 400)
       else None;
     reply_Reactions := fun _ _ _ _ _ => reactors;
     reply_ReactionRemove := fun _ _ _ _ _ => remove;
     reply_ReactionsRemoveAll := fun _ _ _ => removeAll |}.

(** Reactors of every poll: the bot, then two users. *)
Definition busy : Discord :=
  steady ([bot; userA; userB], None) None None.
(** Nobody but the bot has reacted; clearing the reactions fails. *)
Definition quiet : Discord :=
  steady ([bot], None) None (Some (ServiceError 403)).
(** Listing the reactors fails. *)
Definition down : Discord :=
  steady ([], Some (ServiceError 500)) None None.
(** Reactors are listed, removing a reaction fails. *)
Definition locked : Discord :=
  steady ([bot; userA; userB], None) (Some (ServiceError 403)) None.

End Sample.

(** * Properties *)

(** ** The monad and the trace *)

Lemma User_eqb_eq (a b : discordgo.User) : User_eqb a b = true <-> a = b.
Proof.
  unfold User_eqb. destruct a as [i1 n1 b1], b as [i2 n2 b2]; simpl.
  rewrite !andb_true_iff, !String.eqb_eq, Bool.eqb_true_iff.
  split.
  - intros [[-> ->] ->]. reflexivity.
  - intros E. injection E as -> -> ->. auto.
Qed.

Lemma count_app (p : Event -> bool) (s t : Trace) :
  count p (s ++ t) = (count p s + count p t)%nat.
Proof. unfold count. rewrite filter_app, length_app. reflexivity. Qed.

Lemma count_nil (p : Event -> bool) : count p [] = 0%nat.
Proof. reflexivity. Qed.

Lemma count_one (p : Event -> bool) (e : Event) :
  count p [e] = if p e then 1%nat else 0%nat.
Proof. unfold count. simpl. destruct (p e); reflexivity. Qed.

(** ** poll *)

Section Poll.

Variable d : Discord.
Variable ses : discordgo.Session.
Variables chID msID : string.
Variable opt : Option.

Lemma poll_range_self (bots rest : list discordgo.User) (h : Trace) :
  Forall (is_self ses) bots ->
  poll_range d ses chID msID opt (bots ++ rest) h =
  poll_range d ses chID msID opt rest h.
Proof.
  induction 1 as [|u bots Hu _ IH]; simpl; [reflexivity|].
  unfold is_self in Hu. rewrite Hu, String.eqb_refl. exact IH.
Qed.

Lemma poll_range_only_self (bots : list discordgo.User) (h : Trace) :
  Forall (is_self ses) bots ->
  poll_range d ses chID msID opt bots h = (Val (zeroUser, None), h).
Proof.
  intros H. rewrite <- (app_nil_r bots), poll_range_self by exact H.
  reflexivity.
Qed.

Lemma poll_range_other (u : discordgo.User) (rest : list discordgo.User)
    (h : Trace) :
  ~ is_self ses u ->
  poll_range d ses chID msID opt (u :: rest) h =
  (Val (match reply_ReactionRemove d h chID msID (Emoji opt) (ID u) with
        | Some e => (zeroUser, Some e)
        | None => (u, None)
        end),
   h ++ [ReactionRemove chID msID (Emoji opt) (ID u)]).
Proof.
  intros Hu. simpl.
  destruct (String.eqb_spec (ID u) (State_User_ID ses)) as [E|_];
    [contradiction|].
  unfold bind, MessageReactionRemove, ret.
  destruct (reply_ReactionRemove d h chID msID (Emoji opt) (ID u));
    reflexivity.
Qed.

(** After a listing that succeeded, [poll] is its loop over the reactors
    (the test on [len(users)] changes nothing). *)
Lemma poll_listed (users : list discordgo.User) (h : Trace) :
  reply_Reactions d h chID msID (Emoji opt) (ReactionLimit opt)
    = (users, None) ->
  poll d ses chID msID opt h =
  poll_range d ses chID msID opt users
    (h ++ [Reactions chID msID (Emoji opt) (ReactionLimit opt)]).
Proof.
  intros E. unfold poll, bind, MessageReactions. rewrite E. simpl.
  destruct users; reflexivity.
Qed.

Lemma poll_range_shape (users : list discordgo.User) (h : Trace) :
  exists r evs,
    poll_range d ses chID msID opt users h = (Val r, h ++ evs) /\
    Forall (fun e => is_ReactionRemove e = true) evs.
Proof.
  induction users as [|u users IH]; simpl.
  - exists (zeroUser, None), []. rewrite app_nil_r.
    split; [reflexivity|constructor].
  - destruct (String.eqb (ID u) (State_User_ID ses)); [exact IH|].
    unfold bind, MessageReactionRemove, ret.
    destruct (reply_ReactionRemove d h chID msID (Emoji opt) (ID u));
      eexists; eexists; (split; [reflexivity|]); repeat constructor.
Qed.

(** [poll] never panics, starts with the listing call, and besides it only
    removes reactions. *)
Lemma poll_shape (h : Trace) :
  exists r evs,
    poll d ses chID msID opt h =
      (Val r,
       h ++ Reactions chID msID (Emoji opt) (ReactionLimit opt) :: evs) /\
    Forall (fun e => is_ReactionRemove e = true) evs.
Proof.
  unfold poll, bind, MessageReactions.
  destruct (reply_Reactions d h chID msID (Emoji opt) (ReactionLimit opt))
    as [users [e|]]; simpl.
  - exists (zeroUser, Some e), []. split; [reflexivity|constructor].
  - destruct (poll_range_shape users
      (h ++ [Reactions chID msID (Emoji opt) (ReactionLimit opt)]))
      as (r & evs & E & F).
    exists r, evs. split; [|exact F].
    rewrite <- app_assoc in E. destruct users; exact E.
Qed.

End Poll.

(** ** watcher *)

Lemma count_removes (p : Event -> bool) (evs : Trace) :
  (forall e, is_ReactionRemove e = true -> p e = false) ->
  Forall (fun e => is_ReactionRemove e = true) evs ->
  count p evs = 0%nat.
Proof.
  intros Hp. induction 1 as [|e evs He _ IH]; [reflexivity|].
  change (e :: evs) with ([e] ++ evs).
  rewrite count_app, count_one, (Hp e He), IH. reflexivity.
Qed.

Lemma watcher_loop_app (d : Discord) (ctx : WatchContext) (opt : Option)
    (s1 s2 : list Wakeup) (expired : bool) (h : Trace) :
  watcher_loop d ctx opt expired (s1 ++ s2) h =
  match watcher_loop d ctx opt expired s1 h with
  | (Val (Selecting expired'), h') => watcher_loop d ctx opt expired' s2 h'
  | other => other
  end.
Proof.
  revert expired h. induction s1 as [|w s1 IH]; intros expired h; simpl.
  - reflexivity.
  - unfold bind. destruct (watcher_iter d ctx opt expired w h) as [[f|] h'].
    + destruct f as [expired'|]; [apply IH|reflexivity].
    + reflexivity.
Qed.

Section Watcher.

Variable d : Discord.
Variable ctx : WatchContext.
Variable opt : Option.
Variable ses : discordgo.Session.
Variable msg : discordgo.Message.
Hypothesis ctx_Session : Session ctx = Some ses.
Hypothesis ctx_Message : Message ctx = Some msg.

Lemma watcher_iter_expired (h : Trace) :
  watcher_iter d ctx opt true FromTick h =
  (Val Return, h ++ [ReactionsRemoveAll (ChannelID msg) (Message_ID msg)]).
Proof.
  unfold watcher_iter. rewrite ctx_Session, ctx_Message. reflexivity.
Qed.

Lemma watcher_iter_poll (h : Trace) :
  watcher_iter d ctx opt false FromTick h =
  match poll d ses (ChannelID msg) (Message_ID msg) opt h with
  | (Val (user, Some err), h') =>
      (Val Return, h' ++ [CallOnError (OnError opt) err ctx])
  | (Val (user, None), h') =>
      if User_eqb zeroUser user then (Val (Continue false), h')
      else (Val (Continue false),
            h' ++ [CallOnSucess (OnSucess opt) user ctx])
  | (Panic, h') => (Panic, h')
  end.
Proof.
  unfold watcher_iter. rewrite ctx_Session, ctx_Message.
  unfold bind at 1 2 3. simpl.
  destruct (poll d ses (ChannelID msg) (Message_ID msg) opt h)
    as [[[user [err|]]|] h']; simpl; try reflexivity.
  destruct (User_eqb zeroUser user); reflexivity.
Qed.

(** One iteration only adds events; the ones it adds before a [Continue]
    are neither [OnError] calls nor a clearing of the reactions. *)
Lemma watcher_iter_events (expired : bool) (w : Wakeup) (h : Trace) :
  exists f evs,
    watcher_iter d ctx opt expired w h = (Val f, h ++ evs) /\
    (forall expired', f = Continue expired' ->
       count is_OnError evs = 0%nat /\ count is_RemoveAll evs = 0%nat).
Proof.
  destruct w.
  - exists (Continue true), []. rewrite app_nil_r. split; [reflexivity|].
    intros _ _. split; reflexivity.
  - destruct expired.
    + rewrite watcher_iter_expired. eexists; eexists.
      split; [reflexivity|]. discriminate.
    + rewrite watcher_iter_poll.
      destruct (poll_shape d ses (ChannelID msg) (Message_ID msg) opt h)
        as ([user [err|]] & evs & E & F); rewrite E.
      * eexists; eexists. rewrite <- app_assoc.
        split; [reflexivity|]. discriminate.
      * assert (C : forall p,
                   p (Reactions (ChannelID msg) (Message_ID msg) (Emoji opt)
                        (ReactionLimit opt)) = false ->
                   (forall e, is_ReactionRemove e = true -> p e = false) ->
                   count p (Reactions (ChannelID msg) (Message_ID msg)
                              (Emoji opt) (ReactionLimit opt) :: evs) = 0%nat).
        { intros p P1 P2.
          change (count p ([Reactions (ChannelID msg) (Message_ID msg)
                    (Emoji opt) (ReactionLimit opt)] ++ evs) = 0%nat).
          rewrite count_app, count_one, P1, (count_removes p evs P2 F).
          reflexivity. }
        assert (CE := C is_OnError eq_refl
                        ltac:(intros [] ?; (discriminate || reflexivity))).
        assert (CR := C is_RemoveAll eq_refl
                        ltac:(intros [] ?; (discriminate || reflexivity))).
        destruct (User_eqb zeroUser user).
        -- eexists; eexists. split; [reflexivity|]. intros _ _.
           split; assumption.
        -- eexists; eexists. rewrite <- app_assoc.
           split; [reflexivity|]. intros _ _.
           rewrite <- app_comm_cons.
           change (?x :: ?l ++ ?r) with ((x :: l) ++ r).
           rewrite !count_app, CE, CR. split; reflexivity.
Qed.

(** The loop only adds events, whatever happens. *)
Lemma watcher_loop_extends (wakeups : list Wakeup) (expired : bool)
    (h : Trace) :
  exists r evs, watcher_loop d ctx opt expired wakeups h = (Val r, h ++ evs).
Proof.
  revert expired h. induction wakeups as [|w wakeups IH]; intros expired h.
  - exists (Selecting expired), []. rewrite app_nil_r. reflexivity.
  - simpl. unfold bind.
    destruct (watcher_iter_events expired w h) as (f & evs & E & _).
    rewrite E. destruct f as [expired'|].
    + destruct (IH expired' (h ++ evs)) as (r & evs' & E').
      exists r, (evs ++ evs'). rewrite E', app_assoc. reflexivity.
    + exists Returned, evs. reflexivity.
Qed.

(** While the watcher has not returned, it has called no [OnError] and has
    not cleared the reactions. *)
Lemma watcher_loop_selecting (wakeups : list Wakeup) (expired expired' : bool)
    (h h' : Trace) :
  watcher_loop d ctx opt expired wakeups h = (Val (Selecting expired'), h') ->
  exists evs,
    h' = h ++ evs /\
    count is_OnError evs = 0%nat /\ count is_RemoveAll evs = 0%nat.
Proof.
  revert expired h. induction wakeups as [|w wakeups IH]; intros expired h.
  - simpl. unfold ret. intros E. injection E as _ <-.
    exists []. rewrite app_nil_r. repeat split.
  - simpl. unfold bind.
    destruct (watcher_iter_events expired w h) as (f & evs & E & C).
    rewrite E. destruct f as [e1|]; [|discriminate].
    intros L. destruct (IH _ _ L) as (evs' & -> & C1 & C2).
    destruct (C e1 eq_refl) as [C3 C4].
    exists (evs ++ evs'). rewrite app_assoc, !count_app, C1, C2, C3, C4.
    repeat split.
Qed.

End Watcher.

(** The watcher at its [n]-th tick: what is left to run once the wakeups
    [before] have left it in its [select]. *)
Lemma watcher_resume (d : Discord) (ctx : WatchContext) (opt : Option)
    (before later : list Wakeup) (expired : bool) (h1 : Trace) :
  watcher d ctx opt before [] = (Val (Selecting expired), h1) ->
  watcher d ctx opt (before ++ later) [] =
  watcher_loop d ctx opt expired later h1.
Proof.
  intros E. unfold watcher in *. rewrite watcher_loop_app, E. reflexivity.
Qed.

(** ** Claims *)

(** C1, as the code has it.  When the poll of some tick yields a user (a
    reactor other than the bot, whose record is not the zero
    [discordgo.User]), [OnSucess] is called once on that tick, with that
    user, and the watcher does not return: it goes back to its [select] with
    [expired] still false, runs the remaining wakeups as before, and a next
    tick starts with a new listing of the reactors. *)
Theorem watcher_success_keeps_polling
    (d : Discord) (ctx : WatchContext) (opt : Option)
    (ses : discordgo.Session) (msg : discordgo.Message)
    (before later : list Wakeup) (h1 h2 : Trace) (user : discordgo.User) :
  Session ctx = Some ses ->
  Message ctx = Some msg ->
  watcher d ctx opt before [] = (Val (Selecting false), h1) ->
  poll d ses (ChannelID msg) (Message_ID msg) opt h1
    = (Val (user, None), h2) ->
  user <> zeroUser ->
  let h3 := h2 ++ [CallOnSucess (OnSucess opt) user ctx] in
  watcher d ctx opt (before ++ [FromTick]) [] = (Val (Selecting false), h3) /\
  watcher d ctx opt (before ++ FromTick :: later) []
    = watcher_loop d ctx opt false later h3 /\
  exists r evs,
    watcher d ctx opt (before ++ FromTick :: FromTick :: later) [] =
    (Val r,
     h3 ++ Reactions (ChannelID msg) (Message_ID msg) (Emoji opt)
             (ReactionLimit opt) :: evs).
Proof.
  intros Hs Hm Hb Hp Hu h3.
  assert (Step : forall rest,
            watcher_loop d ctx opt false (FromTick :: rest) h1 =
            watcher_loop d ctx opt false rest h3).
  { intros rest. cbn [watcher_loop]. unfold bind.
    rewrite (watcher_iter_poll d ctx opt ses msg Hs Hm), Hp.
    destruct (User_eqb zeroUser user) eqn:Z; [|reflexivity].
    apply User_eqb_eq in Z. congruence. }
  split; [|split].
  - rewrite (watcher_resume _ _ _ _ _ _ _ Hb). apply Step.
  - rewrite (watcher_resume _ _ _ _ _ _ _ Hb). apply Step.
  - rewrite (watcher_resume _ _ _ _ _ _ _ Hb), Step.
    cbn [watcher_loop]. unfold bind.
    rewrite (watcher_iter_poll d ctx opt ses msg Hs Hm).
    destruct (poll_shape d ses (ChannelID msg) (Message_ID msg) opt h3)
      as ([u [err|]] & evs & E & _); rewrite E.
    + exists Returned. eexists. rewrite <- app_assoc. reflexivity.
    + destruct (User_eqb zeroUser u).
      * destruct (watcher_loop_extends d ctx opt ses msg Hs Hm later false
                    (h3 ++ Reactions (ChannelID msg) (Message_ID msg)
                             (Emoji opt) (ReactionLimit opt) :: evs))
          as (r & evs' & E').
        exists r. eexists. rewrite E', <- app_assoc. reflexivity.
      * destruct (watcher_loop_extends d ctx opt ses msg Hs Hm later false
                    ((h3 ++ Reactions (ChannelID msg) (Message_ID msg)
                              (Emoji opt) (ReactionLimit opt) :: evs)
                     ++ [CallOnSucess (OnSucess opt) u ctx]))
          as (r & evs' & E').
        exists r. eexists. rewrite E', <- !app_assoc. reflexivity.
Qed.

(** C1 fails on the code: with the reactors [bot; userA; userB] at every
    poll, the first tick yields [userA] and calls [OnSucess], yet the watcher
    is still in its [select] afterwards, and the second tick polls again and
    calls [OnSucess] a second time. *)
Lemma watcher_polls_again_after_success :
  poll Sample.busy Sample.ses "c1" "m1" Sample.yes [] =
    (Val (Sample.userA, None),
     [Reactions "c1" "m1" "Y" 10; ReactionRemove "c1" "m1" "Y" "201"]) /\
  watcher Sample.busy Sample.ctx Sample.yes [FromTick] [] =
    (Val (Selecting false),
     [Reactions "c1" "m1" "Y" 10; ReactionRemove "c1" "m1" "Y" "201";
      CallOnSucess "onYes" Sample.userA Sample.ctx]) /\
  watcher Sample.busy Sample.ctx Sample.yes [FromTick; FromTick] [] =
    (Val (Selecting false),
     [Reactions "c1" "m1" "Y" 10; ReactionRemove "c1" "m1" "Y" "201";
      CallOnSucess "onYes" Sample.userA Sample.ctx;
      Reactions "c1" "m1" "Y" 10; ReactionRemove "c1" "m1" "Y" "201";
      CallOnSucess "onYes" Sample.userA Sample.ctx]) /\
  ~ (exists t,
       watcher Sample.busy Sample.ctx Sample.yes [FromTick; FromTick] [] =
         (Val Returned, t) /\
       count is_OnSucess t = 1%nat /\ count is_poll t = 1%nat).
Proof.
  repeat split; try reflexivity.
  intros (t & E & _). vm_compute in E. discriminate E.
Qed.

Lemma watcher_success_keeps_polling_witness :
  watcher Sample.busy Sample.ctx Sample.yes ([] ++ [FromTick]) [] =
    (Val (Selecting false),
     [Reactions "c1" "m1" "Y" 10; ReactionRemove "c1" "m1" "Y" "201"] ++
     [CallOnSucess (OnSucess Sample.yes) Sample.userA Sample.ctx]).
Proof.
  apply (watcher_success_keeps_polling Sample.busy Sample.ctx Sample.yes
           Sample.ses Sample.msg [] [] []
           [Reactions "c1" "m1" "Y" 10; ReactionRemove "c1" "m1" "Y" "201"]
           Sample.userA).
  - reflexivity.
  - reflexivity.
  - reflexivity.
  - reflexivity.
  - discriminate.
Defined.

(** The zero [discordgo.User] is the watcher's sign for "nobody": a reactor
    other than the bot whose record is the zero value is returned by [poll]
    after its reaction is removed, and [OnSucess] is not called for it. *)
Example watcher_zero_user_not_reported :
  poll (Sample.steady ([zeroUser], None) None None) Sample.ses "c1" "m1"
    Sample.yes [] =
    (Val (zeroUser, None),
     [Reactions "c1" "m1" "Y" 10; ReactionRemove "c1" "m1" "Y" ""]) /\
  watcher (Sample.steady ([zeroUser], None) None None) Sample.ctx Sample.yes
    [FromTick] [] =
    (Val (Selecting false),
     [Reactions "c1" "m1" "Y" 10; ReactionRemove "c1" "m1" "Y" ""]).
Proof. split; reflexivity. Qed.

(** C2, as the code has it.  [NewWatcher] fails exactly when the tick rate
    is zero: it then returns the error "no tickrate specified (cannot be 0)"
    beside a context with no field set (and, being a pure function, starts no
    watcher).  Every other tick rate, a negative one included, is accepted:
    the context is returned filled in, with a nil error. *)
Theorem NewWatcher_rejects_zero_only
    (message : ptr discordgo.Message) (session : ptr discordgo.Session)
    (tickRate : Z) (data : any) :
  (tickRate = 0 ->
   NewWatcher message session tickRate data =
     (Some zeroWatchContext,
      Some (Errorf "no tickrate specified (cannot be 0)" []))) /\
  (tickRate <> 0 ->
   NewWatcher message session tickRate data =
     (Some {| Message := message; Session := session;
              TickRate := tickRate; Data := data |},
      None)).
Proof.
  unfold NewWatcher. split; intros H.
  - subst tickRate. reflexivity.
  - apply Z.eqb_neq in H. rewrite H. reflexivity.
Qed.

(** C2 fails on the code: a tick rate of -1 is not rejected. *)
Lemma NewWatcher_accepts_negative_tickRate :
  NewWatcher (Some Sample.msg) (Some Sample.ses) (-1) None =
    (Some {| Message := Some Sample.msg; Session := Some Sample.ses;
             TickRate := -1; Data := None |},
     None).
Proof. reflexivity. Qed.

Lemma NewWatcher_rejects_zero_only_witness :
  NewWatcher (Some Sample.msg) (Some Sample.ses) 0 None =
    (Some zeroWatchContext,
     Some (Errorf "no tickrate specified (cannot be 0)" [])).
Proof.
  apply (proj1 (NewWatcher_rejects_zero_only
                  (Some Sample.msg) (Some Sample.ses) 0 None)).
  reflexivity.
Defined.

(** C3.  [Add] without options returns the error "no emoji options
    specified" and leaves the trace as it was: no reaction is attached and
    no watcher started.  This holds for every context, the zero one
    included, since nothing of it is read. *)
Theorem Add_without_options (d : Discord) (ctx : WatchContext) (h : Trace) :
  Add d ctx [] h = (Val (Some (Errorf "no emoji options specified" [])), h).
Proof. reflexivity. Qed.

(** C9.  Whenever [NewWatcher] returns an error, the tick rate was zero and
    the pointer returned beside the error is not nil: it points to the zero
    [WatchContext], so reading through it does not panic. *)
Theorem NewWatcher_error_context_not_nil
    (message : ptr discordgo.Message) (session : ptr discordgo.Session)
    (tickRate : Z) (data : any) :
  snd (NewWatcher message session tickRate data) <> None ->
  tickRate = 0 /\
  fst (NewWatcher message session tickRate data) = Some zeroWatchContext /\
  forall h : Trace,
    deref (fst (NewWatcher message session tickRate data)) h =
    (Val zeroWatchContext, h).
Proof.
  unfold NewWatcher. destruct (Z.eqb_spec tickRate 0) as [E|E]; simpl.
  - intros _. repeat split. exact E.
  - intros H. contradiction H. reflexivity.
Qed.

Lemma NewWatcher_error_context_not_nil_witness :
  fst (NewWatcher (Some Sample.msg) (Some Sample.ses) 0 (Some "payload"))
    = Some zeroWatchContext.
Proof.
  apply (NewWatcher_error_context_not_nil
           (Some Sample.msg) (Some Sample.ses) 0 (Some "payload")).
  simpl. discriminate.
Defined.

(** C4.  When the listing succeeds and its first reactor that is not the
    bot is [userA] (the reactors before it all carry the bot's identity),
    [poll] makes one more call, the removal of [userA]'s reaction on the
    option's emoji, and nothing else; if that removal succeeds it returns
    [userA] with a nil error.  Neither the calls nor the result depend on
    [rest], the reactors listed after [userA].  With [bots := [bot]] and
    [rest := [userB]] this is the list [bot; userA; userB]. *)
Theorem poll_first_other_reactor
    (d : Discord) (ses : discordgo.Session) (chID msID : string)
    (opt : Option) (bots rest : list discordgo.User) (userA : discordgo.User)
    (h : Trace) :
  let h1 := h ++ [Reactions chID msID (Emoji opt) (ReactionLimit opt)] in
  reply_Reactions d h chID msID (Emoji opt) (ReactionLimit opt)
    = (bots ++ userA :: rest, None) ->
  Forall (is_self ses) bots ->
  ~ is_self ses userA ->
  snd (poll d ses chID msID opt h) =
    h1 ++ [ReactionRemove chID msID (Emoji opt) (ID userA)] /\
  (reply_ReactionRemove d h1 chID msID (Emoji opt) (ID userA) = None ->
   poll d ses chID msID opt h =
     (Val (userA, None),
      h1 ++ [ReactionRemove chID msID (Emoji opt) (ID userA)])).
Proof.
  intros h1 L B A.
  rewrite (poll_listed d ses chID msID opt _ h L).
  rewrite poll_range_self by exact B.
  rewrite poll_range_other by exact A.
  split; [reflexivity|]. fold h1. intros ->. reflexivity.
Qed.

Lemma poll_first_other_reactor_witness :
  poll Sample.busy Sample.ses "c1" "m1" Sample.yes [] =
    (Val (Sample.userA, None),
     [Reactions "c1" "m1" "Y" 10; ReactionRemove "c1" "m1" "Y" "201"]).
Proof.
  apply (poll_first_other_reactor Sample.busy Sample.ses "c1" "m1"
           Sample.yes [Sample.bot] [Sample.userB] Sample.userA []).
  - reflexivity.
  - repeat constructor.
  - unfold is_self. simpl. discriminate.
  - reflexivity.
Defined.

(** C5.  When the listing succeeds and every reactor listed carries the
    bot's identity (an empty list included), [poll] returns the zero user
    with a nil error after the listing call alone: no reaction is removed.
    The watcher's tick then calls neither callback and leaves the watcher in
    its [select] with [expired] false, ready for the next wakeup. *)
Theorem poll_no_other_reactor
    (d : Discord) (ctx : WatchContext) (opt : Option)
    (ses : discordgo.Session) (msg : discordgo.Message)
    (users : list discordgo.User) (later : list Wakeup) (h : Trace) :
  let h1 := h ++ [Reactions (ChannelID msg) (Message_ID msg) (Emoji opt)
                    (ReactionLimit opt)] in
  Session ctx = Some ses ->
  Message ctx = Some msg ->
  reply_Reactions d h (ChannelID msg) (Message_ID msg) (Emoji opt)
    (ReactionLimit opt) = (users, None) ->
  Forall (is_self ses) users ->
  poll d ses (ChannelID msg) (Message_ID msg) opt h
    = (Val (zeroUser, None), h1) /\
  watcher_iter d ctx opt false FromTick h = (Val (Continue false), h1) /\
  watcher_loop d ctx opt false [FromTick] h = (Val (Selecting false), h1) /\
  watcher_loop d ctx opt false (FromTick :: later) h
    = watcher_loop d ctx opt false later h1.
Proof.
  intros h1 Hs Hm L B.
  assert (P : poll d ses (ChannelID msg) (Message_ID msg) opt h
              = (Val (zeroUser, None), h1)).
  { rewrite (poll_listed d ses _ _ opt _ h L).
    apply poll_range_only_self. exact B. }
  assert (I : watcher_iter d ctx opt false FromTick h
              = (Val (Continue false), h1)).
  { rewrite (watcher_iter_poll d ctx opt ses msg Hs Hm), P. reflexivity. }
  repeat split; try assumption.
  - cbn [watcher_loop]. unfold bind. rewrite I. reflexivity.
  - cbn [watcher_loop]. unfold bind. rewrite I. reflexivity.
Qed.

Lemma poll_no_other_reactor_witness :
  poll Sample.quiet Sample.ses "c1" "m1" Sample.yes []
    = (Val (zeroUser, None), [Reactions "c1" "m1" "Y" 10]) /\
  watcher_iter Sample.quiet Sample.ctx Sample.yes false FromTick []
    = (Val (Continue false), [Reactions "c1" "m1" "Y" 10]).
Proof.
  destruct (poll_no_other_reactor Sample.quiet Sample.ctx Sample.yes
              Sample.ses Sample.msg [Sample.bot] [] [])
    as (P & I & _).
  - reflexivity.
  - reflexivity.
  - reflexivity.
  - repeat constructor.
  - split; [exact P|exact I].
Defined.

(** C6.  Take a watcher still in its [select] after the wakeups [before]
    (in particular one none of whose polls has found a user yet).  When its
    expiration fires it only sets [expired] and stays in the [select]; on the
    next tick it clears the reactions of the message, whatever Discord
    answers to that call, and returns: that tick does not poll, the wakeups
    [later] add nothing, and the clearing is the only one of the whole
    run. *)
Theorem watcher_expiration
    (d : Discord) (ctx : WatchContext) (opt : Option)
    (ses : discordgo.Session) (msg : discordgo.Message)
    (before later : list Wakeup) (expired : bool) (h1 : Trace) :
  let h2 := h1 ++ [ReactionsRemoveAll (ChannelID msg) (Message_ID msg)] in
  Session ctx = Some ses ->
  Message ctx = Some msg ->
  watcher d ctx opt before [] = (Val (Selecting expired), h1) ->
  watcher d ctx opt (before ++ [FromExpiration]) []
    = (Val (Selecting true), h1) /\
  watcher d ctx opt (before ++ FromExpiration :: FromTick :: later) []
    = (Val Returned, h2) /\
  count is_RemoveAll h2 = 1%nat /\
  count is_poll h2 = count is_poll h1.
Proof.
  intros h2 Hs Hm Hb. repeat split.
  - rewrite (watcher_resume _ _ _ _ _ _ _ Hb). reflexivity.
  - rewrite (watcher_resume _ _ _ _ _ _ _ Hb).
    cbn [watcher_loop]. unfold bind.
    change (watcher_iter d ctx opt expired FromExpiration h1)
      with (@Val Flow (Continue true), h1).
    cbn iota beta.
    rewrite (watcher_iter_expired d ctx opt ses msg Hs Hm). reflexivity.
  - destruct (watcher_loop_selecting d ctx opt ses msg Hs Hm _ _ _ _ _ Hb)
      as (evs & E & _ & C).
    simpl in E. subst h1 h2. rewrite count_app, C. reflexivity.
  - unfold h2. rewrite count_app, count_one. simpl. lia.
Qed.

Lemma watcher_expiration_witness :
  watcher Sample.quiet Sample.ctx Sample.yes
    ([FromTick; FromTick] ++ FromExpiration :: FromTick :: [FromTick]) []
  = (Val Returned,
     [Reactions "c1" "m1" "Y" 10; Reactions "c1" "m1" "Y" 10] ++
     [ReactionsRemoveAll "c1" "m1"]).
Proof.
  apply (watcher_expiration Sample.quiet Sample.ctx Sample.yes
           Sample.ses Sample.msg [FromTick; FromTick] [FromTick] false
           [Reactions "c1" "m1" "Y" 10; Reactions "c1" "m1" "Y" 10]).
  - reflexivity.
  - reflexivity.
  - reflexivity.
Defined.

(** C7.  Take a watcher in its [select], not expired, after the wakeups
    [before].  If the poll of the next tick returns an error, that tick calls
    [OnError] with this error and the watcher returns: the wakeups [later]
    add nothing (no further poll).  Over the whole run [OnError] is called
    once and the reactions are never cleared. *)
Theorem watcher_poll_error
    (d : Discord) (ctx : WatchContext) (opt : Option)
    (ses : discordgo.Session) (msg : discordgo.Message)
    (before later : list Wakeup) (h1 h2 : Trace)
    (user : discordgo.User) (err : error) :
  let h3 := h2 ++ [CallOnError (OnError opt) err ctx] in
  Session ctx = Some ses ->
  Message ctx = Some msg ->
  watcher d ctx opt before [] = (Val (Selecting false), h1) ->
  poll d ses (ChannelID msg) (Message_ID msg) opt h1
    = (Val (user, Some err), h2) ->
  watcher d ctx opt (before ++ FromTick :: later) [] = (Val Returned, h3) /\
  count is_OnError h3 = 1%nat /\
  count is_RemoveAll h3 = 0%nat /\
  count is_poll h3 = count is_poll h2.
Proof.
  intros h3 Hs Hm Hb Hp. repeat split.
  - rewrite (watcher_resume _ _ _ _ _ _ _ Hb).
    cbn [watcher_loop]. unfold bind.
    rewrite (watcher_iter_poll d ctx opt ses msg Hs Hm), Hp. reflexivity.
  - destruct (watcher_loop_selecting d ctx opt ses msg Hs Hm _ _ _ _ _ Hb)
      as (evs & E & C & _).
    destruct (poll_shape d ses (ChannelID msg) (Message_ID msg) opt h1)
      as (r & evs' & E' & F).
    rewrite E' in Hp. injection Hp as _ <-.
    simpl in E. subst h1 h3.
    change (?x :: evs') with ([x] ++ evs').
    rewrite !count_app, C, !count_one. simpl.
    rewrite (count_removes is_OnError evs'); [reflexivity| |exact F].
    intros [] ?; (discriminate || reflexivity).
  - destruct (watcher_loop_selecting d ctx opt ses msg Hs Hm _ _ _ _ _ Hb)
      as (evs & E & _ & C).
    destruct (poll_shape d ses (ChannelID msg) (Message_ID msg) opt h1)
      as (r & evs' & E' & F).
    rewrite E' in Hp. injection Hp as _ <-.
    simpl in E. subst h1 h3.
    change (?x :: evs') with ([x] ++ evs').
    rewrite !count_app, C, !count_one. simpl.
    rewrite (count_removes is_RemoveAll evs'); [reflexivity| |exact F].
    intros [] ?; (discriminate || reflexivity).
  - unfold h3. rewrite count_app, count_one. simpl. lia.
Qed.

Lemma watcher_poll_error_witness :
  watcher Sample.down Sample.ctx Sample.yes ([] ++ FromTick :: [FromTick]) []
  = (Val Returned,
     [Reactions "c1" "m1" "Y" 10] ++
     [CallOnError (OnError Sample.yes) (ServiceError 500) Sample.ctx]).
Proof.
  apply (watcher_poll_error Sample.down Sample.ctx Sample.yes
           Sample.ses Sample.msg [] [FromTick] []
           [Reactions "c1" "m1" "Y" 10] zeroUser (ServiceError 500)).
  - reflexivity.
  - reflexivity.
  - reflexivity.
  - reflexivity.
Defined.

(** C10.  When the listing succeeds, its first reactor other than the bot is
    [userA] and the removal of [userA]'s reaction fails with [err], [poll]
    returns the zero user together with [err].  The watcher's tick then calls
    [OnError] with [err] and returns: [OnSucess] is not called on that tick,
    and the wakeups [later] add nothing. *)
Theorem poll_remove_error
    (d : Discord) (ctx : WatchContext) (opt : Option)
    (ses : discordgo.Session) (msg : discordgo.Message)
    (bots rest : list discordgo.User) (userA : discordgo.User)
    (err : error) (later : list Wakeup) (h : Trace) :
  let h1 := h ++ [Reactions (ChannelID msg) (Message_ID msg) (Emoji opt)
                    (ReactionLimit opt)] in
  let h2 := h1 ++ [ReactionRemove (ChannelID msg) (Message_ID msg)
                     (Emoji opt) (ID userA)] in
  let h3 := h2 ++ [CallOnError (OnError opt) err ctx] in
  Session ctx = Some ses ->
  Message ctx = Some msg ->
  reply_Reactions d h (ChannelID msg) (Message_ID msg) (Emoji opt)
    (ReactionLimit opt) = (bots ++ userA :: rest, None) ->
  Forall (is_self ses) bots ->
  ~ is_self ses userA ->
  reply_ReactionRemove d h1 (ChannelID msg) (Message_ID msg) (Emoji opt)
    (ID userA) = Some err ->
  poll d ses (ChannelID msg) (Message_ID msg) opt h
    = (Val (zeroUser, Some err), h2) /\
  watcher_loop d ctx opt false (FromTick :: later) h = (Val Returned, h3) /\
  count is_OnSucess h3 = count is_OnSucess h.
Proof.
  intros h1 h2 h3 Hs Hm L B A R.
  assert (P : poll d ses (ChannelID msg) (Message_ID msg) opt h
              = (Val (zeroUser, Some err), h2)).
  { rewrite (poll_listed d ses _ _ opt _ h L).
    rewrite poll_range_self by exact B.
    rewrite poll_range_other by exact A.
    fold h1. rewrite R. reflexivity. }
  repeat split.
  - exact P.
  - cbn [watcher_loop]. unfold bind.
    rewrite (watcher_iter_poll d ctx opt ses msg Hs Hm), P. reflexivity.
  - unfold h3, h2, h1. rewrite !count_app, !count_one. simpl. lia.
Qed.

Lemma poll_remove_error_witness :
  poll Sample.locked Sample.ses "c1" "m1" Sample.yes []
    = (Val (zeroUser, Some (ServiceError 403)),
       [Reactions "c1" "m1" "Y" 10; ReactionRemove "c1" "m1" "Y" "201"]) /\
  watcher_loop Sample.locked Sample.ctx Sample.yes false
    [FromTick; FromTick] []
    = (Val Returned,
       [Reactions "c1" "m1" "Y" 10; ReactionRemove "c1" "m1" "Y" "201";
        CallOnError "onYesErr" (ServiceError 403) Sample.ctx]).
Proof.
  destruct (poll_remove_error Sample.locked Sample.ctx Sample.yes
              Sample.ses Sample.msg [Sample.bot] [Sample.userB] Sample.userA
              (ServiceError 403) [FromTick] [])
    as (P & W & _).
  - reflexivity.
  - reflexivity.
  - reflexivity.
  - repeat constructor.
  - unfold is_self. simpl. discriminate.
  - reflexivity.
  - split; [exact P|exact W].
Defined.

(** ** Add *)

Lemma launched_app (ctx : WatchContext) (msg : discordgo.Message)
    (l1 l2 : list Option) :
  launched ctx msg (l1 ++ l2) = launched ctx msg l1 ++ launched ctx msg l2.
Proof. unfold launched. apply flat_map_app. Qed.

Lemma launched_watchers (ctx : WatchContext) (msg : discordgo.Message)
    (l : list Option) :
  filter is_GoWatcher (launched ctx msg l) = map (GoWatcher ctx) l.
Proof.
  induction l as [|v l IH]; simpl; [reflexivity|]. rewrite IH. reflexivity.
Qed.

Lemma launched_no_removal (ctx : WatchContext) (msg : discordgo.Message)
    (l : list Option) :
  count (fun e => is_ReactionRemove e || is_RemoveAll e)
    (launched ctx msg l) = 0%nat.
Proof.
  unfold count. induction l as [|v l IH]; simpl; [reflexivity|exact IH].
Qed.

(** The loop of [Add] over options whose reactions are all accepted. *)
Lemma Add_range_accepted (d : Discord) (ctx : WatchContext)
    (ses : discordgo.Session) (msg : discordgo.Message)
    (done rest : list Option) (h : Trace) :
  Session ctx = Some ses ->
  Message ctx = Some msg ->
  (forall done1 w done2, done = done1 ++ w :: done2 ->
     reply_ReactionAdd d (h ++ launched ctx msg done1)
       (ChannelID msg) (Message_ID msg) (Emoji w) = None) ->
  Add_range d ctx (done ++ rest) h =
  Add_range d ctx rest (h ++ launched ctx msg done).
Proof.
  intros Hs Hm. revert h. induction done as [|v done IH]; intros h Acc.
  - simpl. rewrite app_nil_r. reflexivity.
  - cbn [app Add_range]. rewrite Hs, Hm. unfold bind at 1 2 3. cbn [deref].
    unfold MessageReactionAdd.
    generalize (Acc [] v done eq_refl). simpl. rewrite app_nil_r.
    intros ->. unfold bind, emit.
    rewrite IH.
    + rewrite <- !app_assoc. reflexivity.
    + intros done1 w done2 E.
      generalize (Acc (v :: done1) w done2). rewrite E. simpl.
      rewrite <- !app_assoc. intros A. apply A. reflexivity.
Qed.

(** C8.  Let the context have a message and a session, and let Discord
    accept the reaction of each option of [done], asked in this order, each
    after the events of the options before it.  Then
    - [Add] on [done] alone (not empty) returns nil after attaching, for each
      option in order, its reaction and then starting its watcher;
    - [Add] on [done ++ v :: rest], where the reaction of [v] is refused,
      has done the same for [done], asked for the reaction of [v] and
      returned its error at once: nothing is asked for [rest], the watchers
      started are those of [done], and no reaction is removed. *)
Theorem Add_in_order_fail_fast
    (d : Discord) (ctx : WatchContext)
    (ses : discordgo.Session) (msg : discordgo.Message)
    (done rest : list Option) (v : Option) (h : Trace) :
  let asked := launched ctx msg done ++
               [ReactionAdd (ChannelID msg) (Message_ID msg) (Emoji v)] in
  Session ctx = Some ses ->
  Message ctx = Some msg ->
  (forall done1 w done2, done = done1 ++ w :: done2 ->
     reply_ReactionAdd d (h ++ launched ctx msg done1)
       (ChannelID msg) (Message_ID msg) (Emoji w) = None) ->
  (done <> [] ->
   Add d ctx done h = (Val None, h ++ launched ctx msg done)) /\
  (reply_ReactionAdd d (h ++ launched ctx msg done)
     (ChannelID msg) (Message_ID msg) (Emoji v) <> None ->
   Add d ctx (done ++ v :: rest) h =
     (Val (Some (Errorf
        "can't add reaction to message %q. Was that a unicode emoji?"
        [Message_ID msg])),
      h ++ asked)) /\
  filter is_GoWatcher asked = map (GoWatcher ctx) done /\
  count (fun e => is_ReactionRemove e || is_RemoveAll e) asked = 0%nat.
Proof.
  intros asked Hs Hm Acc. repeat split.
  - intros N. unfold Add.
    destruct done as [|v0 done0]; [contradiction N; reflexivity|].
    cbn [List.length Nat.eqb].
    rewrite <- (app_nil_r (v0 :: done0)) at 1.
    rewrite (Add_range_accepted d ctx ses msg _ [] h Hs Hm Acc). reflexivity.
  - intros F. unfold Add.
    replace (List.length (done ++ v :: rest) =? 0)%nat with false
      by (destruct done; reflexivity).
    rewrite (Add_range_accepted d ctx ses msg _ _ h Hs Hm Acc).
    cbn [Add_range]. rewrite Hs, Hm. unfold bind, MessageReactionAdd.
    cbn [deref].
    destruct (reply_ReactionAdd d (h ++ launched ctx msg done)
                (ChannelID msg) (Message_ID msg) (Emoji v)) as [e|];
      [|contradiction F; reflexivity].
    unfold ret, asked. rewrite <- app_assoc. reflexivity.
  - unfold asked. rewrite filter_app, launched_watchers. simpl.
    apply app_nil_r.
  - unfold asked. rewrite count_app, launched_no_removal. reflexivity.
Qed.

Lemma Add_in_order_fail_fast_witness :
  Add (Sample.steady ([], None) None None) Sample.ctx
    [Sample.yes; Sample.no] []
  = (Val None,
     [ReactionAdd "c1" "m1" "Y"; GoWatcher Sample.ctx Sample.yes;
      ReactionAdd "c1" "m1" "N"; GoWatcher Sample.ctx Sample.no]) /\
  Add (Sample.steady ([], None) None None) Sample.ctx
    ([Sample.yes; Sample.no] ++ Sample.bad :: [Sample.yes]) []
  = (Val (Some (Errorf
       "can't add reaction to message %q. Was that a unicode emoji?"
       ["m1"])),
     [ReactionAdd "c1" "m1" "Y"; GoWatcher Sample.ctx Sample.yes;
      ReactionAdd "c1" "m1" "N"; GoWatcher Sample.ctx Sample.no;
      ReactionAdd "c1" "m1" "not-an-emoji"]).
Proof.
  destruct (Add_in_order_fail_fast (Sample.steady ([], None) None None)
              Sample.ctx Sample.ses Sample.msg [Sample.yes; Sample.no]
              [Sample.yes] Sample.bad [])
    as (A & B & _).
  - reflexivity.
  - reflexivity.
  - intros done1 w done2 E.
    destruct done1 as [|a [|b [|c done1]]]; simpl in E.
    + injection E as <- _. reflexivity.
    + injection E as _ <- _. reflexivity.
    + injection E as _ _ E. discriminate E.
    + injection E as _ _ E. discriminate E.
  - split.
    + apply A. discriminate.
    + apply B. simpl. discriminate.
Defined.

(** * Further properties *)

(** ** poll, whatever Discord answers *)

Lemma reactors_split (ses : discordgo.Session) (users : list discordgo.User) :
  Forall (is_self ses) users \/
  exists bots u rest,
    users = bots ++ u :: rest /\ Forall (is_self ses) bots /\ ~ is_self ses u.
Proof.
  induction users as [|a users IH].
  - left. constructor.
  - destruct (string_dec (ID a) (State_User_ID ses)) as [E|N].
    + destruct IH as [F|(bots & u & rest & -> & F & Nu)].
      * left. constructor; assumption.
      * right. exists (a :: bots), u, rest.
        repeat split; [constructor; assumption|exact Nu].
    + right. exists [], a, users. repeat split; [constructor|exact N].
Qed.

(** The four ways a poll can go. *)
Lemma poll_cases (d : Discord) (ses : discordgo.Session) (chID msID : string)
    (opt : Option) (h : Trace) :
  let h1 := h ++ [Reactions chID msID (Emoji opt) (ReactionLimit opt)] in
  (exists users e,
     reply_Reactions d h chID msID (Emoji opt) (ReactionLimit opt)
       = (users, Some e) /\
     poll d ses chID msID opt h = (Val (zeroUser, Some e), h1)) \/
  (exists users,
     reply_Reactions d h chID msID (Emoji opt) (ReactionLimit opt)
       = (users, None) /\
     Forall (is_self ses) users /\
     poll d ses chID msID opt h = (Val (zeroUser, None), h1)) \/
  (exists bots u rest,
     reply_Reactions d h chID msID (Emoji opt) (ReactionLimit opt)
       = (bots ++ u :: rest, None) /\
     Forall (is_self ses) bots /\ ~ is_self ses u /\
     ((reply_ReactionRemove d h1 chID msID (Emoji opt) (ID u) = None /\
       poll d ses chID msID opt h =
         (Val (u, None),
          h1 ++ [ReactionRemove chID msID (Emoji opt) (ID u)])) \/
      (exists e,
         reply_ReactionRemove d h1 chID msID (Emoji opt) (ID u) = Some e /\
         poll d ses chID msID opt h =
           (Val (zeroUser, Some e),
            h1 ++ [ReactionRemove chID msID (Emoji opt) (ID u)])))).
Proof.
  intros h1.
  destruct (reply_Reactions d h chID msID (Emoji opt) (ReactionLimit opt))
    as [users [e|]] eqn:L.
  - left. exists users, e. split; [reflexivity|].
    unfold poll, bind, MessageReactions. rewrite L. reflexivity.
  - right. rewrite (poll_listed d ses chID msID opt users h L). fold h1.
    destruct (reactors_split ses users) as [F|(bots & u & rest & -> & F & N)].
    + left. exists users. repeat split; [exact F|].
      apply poll_range_only_self. exact F.
    + right. exists bots, u, rest. repeat split; [exact F|exact N|].
      rewrite poll_range_self by exact F.
      rewrite poll_range_other by exact N.
      destruct (reply_ReactionRemove d h1 chID msID (Emoji opt) (ID u))
        as [e|].
      * right. exists e. split; reflexivity.
      * left. split; reflexivity.
Qed.

(** X1.  Whatever Discord answers, [poll] makes the listing call and at most
    one more call: the removal, on the same message and emoji, of the
    reaction of a listed user who is not the bot.  It makes that call only
    after a listing that succeeded; the users that come with a failed listing
    are not looked at. *)
Theorem poll_calls
    (d : Discord) (ses : discordgo.Session) (chID msID : string)
    (opt : Option) (h : Trace) :
  let h1 := h ++ [Reactions chID msID (Emoji opt) (ReactionLimit opt)] in
  let listed :=
    reply_Reactions d h chID msID (Emoji opt) (ReactionLimit opt) in
  snd (poll d ses chID msID opt h) = h1 \/
  exists u,
    snd (poll d ses chID msID opt h) =
      h1 ++ [ReactionRemove chID msID (Emoji opt) (ID u)] /\
    snd listed = None /\ In u (fst listed) /\ ID u <> State_User_ID ses.
Proof.
  intros h1 listed.
  destruct (poll_cases d ses chID msID opt h)
    as [(users & e & L & P)|[(users & L & F & P)|
        (bots & u & rest & L & F & N & R)]].
  - left. rewrite P. reflexivity.
  - left. rewrite P. reflexivity.
  - right. exists u. unfold listed. rewrite L. simpl.
    repeat split; [|apply in_or_app; right; left; reflexivity|exact N].
    destruct R as [(_ & P)|(e & _ & P)]; rewrite P; reflexivity.
Qed.

(** X2.  [poll] never returns a user together with an error: with an error
    the user is the zero user, and the error is the one Discord gave, to the
    listing or to the removal, unchanged. *)
Theorem poll_error_passed_through
    (d : Discord) (ses : discordgo.Session) (chID msID : string)
    (opt : Option) (h h' : Trace) (user : discordgo.User) (err : error) :
  let h1 := h ++ [Reactions chID msID (Emoji opt) (ReactionLimit opt)] in
  poll d ses chID msID opt h = (Val (user, Some err), h') ->
  user = zeroUser /\
  (snd (reply_Reactions d h chID msID (Emoji opt) (ReactionLimit opt))
     = Some err \/
   exists u,
     reply_ReactionRemove d h1 chID msID (Emoji opt) (ID u) = Some err).
Proof.
  intros h1 E.
  destruct (poll_cases d ses chID msID opt h)
    as [(users & e & L & P)|[(users & L & F & P)|
        (bots & u & rest & L & F & N & [(R & P)|(e & R & P)])]];
    rewrite P in E; try discriminate E.
  - injection E as <- <- _. split; [reflexivity|]. left. rewrite L.
    reflexivity.
  - injection E as <- <- _. split; [reflexivity|]. right. exists u. exact R.
Qed.

Lemma poll_error_passed_through_witness :
  zeroUser = zeroUser /\
  (snd (reply_Reactions Sample.locked [] "c1" "m1" (Emoji Sample.yes)
          (ReactionLimit Sample.yes)) = Some (ServiceError 403) \/
   exists u,
     reply_ReactionRemove Sample.locked
       ([] ++ [Reactions "c1" "m1" (Emoji Sample.yes)
                 (ReactionLimit Sample.yes)])
       "c1" "m1" (Emoji Sample.yes) (ID u) = Some (ServiceError 403)).
Proof.
  apply (poll_error_passed_through Sample.locked Sample.ses "c1" "m1"
           Sample.yes []
           [Reactions "c1" "m1" "Y" 10; ReactionRemove "c1" "m1" "Y" "201"]
           zeroUser (ServiceError 403)).
  reflexivity.
Defined.

(** X3.  A user returned by [poll] (nil error, not the zero user) is the
    first listed reactor that is not the bot, and its reaction has been
    removed, successfully, as the last call of the poll. *)
Theorem poll_user_is_first_other
    (d : Discord) (ses : discordgo.Session) (chID msID : string)
    (opt : Option) (h h' : Trace) (user : discordgo.User) :
  let h1 := h ++ [Reactions chID msID (Emoji opt) (ReactionLimit opt)] in
  poll d ses chID msID opt h = (Val (user, None), h') ->
  user <> zeroUser ->
  (exists bots rest,
     reply_Reactions d h chID msID (Emoji opt) (ReactionLimit opt)
       = (bots ++ user :: rest, None) /\
     Forall (is_self ses) bots) /\
  ID user <> State_User_ID ses /\
  reply_ReactionRemove d h1 chID msID (Emoji opt) (ID user) = None /\
  h' = h1 ++ [ReactionRemove chID msID (Emoji opt) (ID user)].
Proof.
  intros h1 E Z.
  destruct (poll_cases d ses chID msID opt h)
    as [(users & e & L & P)|[(users & L & F & P)|
        (bots & u & rest & L & F & N & [(R & P)|(e & R & P)])]];
    rewrite P in E; try discriminate E.
  - injection E as <- _. contradiction Z. reflexivity.
  - injection E as <- <-. repeat split; try assumption.
    exists bots, rest. split; assumption.
Qed.

Lemma poll_user_is_first_other_witness :
  ID Sample.userA <> State_User_ID Sample.ses.
Proof.
  apply (poll_user_is_first_other Sample.busy Sample.ses "c1" "m1"
           Sample.yes []
           [Reactions "c1" "m1" "Y" 10; ReactionRemove "c1" "m1" "Y" "201"]
           Sample.userA).
  - reflexivity.
  - discriminate.
Defined.

(** ** watcher, whatever Discord answers and whenever the timers fire *)

Section WatcherRuns.

Variable d : Discord.
Variable ctx : WatchContext.
Variable opt : Option.
Variable ses : discordgo.Session.
Variable msg : discordgo.Message.
Hypothesis ctx_Session : Session ctx = Some ses.
Hypothesis ctx_Message : Message ctx = Some msg.

(** What one iteration adds to the trace. *)
Lemma watcher_iter_summary (expired : bool) (w : Wakeup) (h : Trace) :
  exists f evs,
    watcher_iter d ctx opt expired w h = (Val f, h ++ evs) /\
    Forall (watcher_event ctx opt ses msg) evs /\
    (count is_OnSucess evs <= count is_ReactionRemove evs)%nat /\
    (count is_ReactionRemove evs <= count is_poll evs)%nat /\
    (count is_poll evs <= ticks [w])%nat /\
    (count is_OnError evs + count is_RemoveAll evs)%nat =
      match f with Return => 1%nat | Continue _ => 0%nat end /\
    (expired = false -> w = FromTick ->
     count is_RemoveAll evs = 0%nat /\
     forall expired', f = Continue expired' -> expired' = false).
Proof.
  destruct w.
  - exists (Continue true), []. rewrite app_nil_r.
    repeat split; try constructor; discriminate.
  - destruct expired.
    + rewrite (watcher_iter_expired d ctx opt ses msg ctx_Session ctx_Message).
      eexists; eexists. split; [reflexivity|].
      repeat split; try (repeat constructor; fail); discriminate.
    + rewrite (watcher_iter_poll d ctx opt ses msg ctx_Session ctx_Message).
      destruct (poll_cases d ses (ChannelID msg) (Message_ID msg) opt h)
        as [(users & e & L & P)|[(users & L & F & P)|
            (bots & u & rest & L & F & N & [(R & P)|(e & R & P)])]];
        rewrite P.
      * eexists; eexists. rewrite <- app_assoc. split; [reflexivity|].
        repeat split; try (repeat constructor; fail); discriminate.
      * change (User_eqb zeroUser zeroUser) with true. cbn iota.
        eexists; eexists. split; [reflexivity|].
        repeat split; try (repeat constructor; fail).
        intros ? E. injection E as <-. reflexivity.
      * destruct (User_eqb zeroUser u) eqn:Z.
        -- eexists; eexists. rewrite <- app_assoc. split; [reflexivity|].
           repeat split; try (repeat constructor; fail).
           ++ repeat constructor; simpl; repeat split; exact N.
           ++ intros ? E. injection E as <-. reflexivity.
        -- assert (Zu : u <> zeroUser).
           { intros ->. rewrite (proj2 (User_eqb_eq _ _) eq_refl) in Z.
             discriminate Z. }
           eexists; eexists. rewrite <- !app_assoc. split; [reflexivity|].
           repeat split; try (repeat constructor; fail).
           ++ repeat constructor; simpl; repeat split;
                (exact N || exact Zu).
           ++ intros ? E. injection E as <-. reflexivity.
      * eexists; eexists. rewrite <- !app_assoc. split; [reflexivity|].
        repeat split; try (repeat constructor; fail); try discriminate.
        repeat constructor; simpl; repeat split; exact N.
Qed.

Lemma ticks_cons (w : Wakeup) (wakeups : list Wakeup) :
  ticks (w :: wakeups) = (ticks [w] + ticks wakeups)%nat.
Proof. unfold ticks. destruct w; reflexivity. Qed.

(** What a whole run adds to the trace. *)
Lemma watcher_loop_summary (wakeups : list Wakeup) (expired : bool)
    (h : Trace) :
  exists st evs,
    watcher_loop d ctx opt expired wakeups h = (Val st, h ++ evs) /\
    Forall (watcher_event ctx opt ses msg) evs /\
    (count is_OnSucess evs <= count is_ReactionRemove evs)%nat /\
    (count is_ReactionRemove evs <= count is_poll evs)%nat /\
    (count is_poll evs <= ticks wakeups)%nat /\
    (count is_OnError evs + count is_RemoveAll evs)%nat =
      match st with Returned => 1%nat | Selecting _ => 0%nat end /\
    (expired = false -> ~ In FromExpiration wakeups ->
     count is_RemoveAll evs = 0%nat).
Proof.
  revert expired h. induction wakeups as [|w wakeups IH]; intros expired h.
  - exists (Selecting expired), []. rewrite app_nil_r.
    repeat split; constructor.
  - cbn [watcher_loop]. unfold bind.
    destruct (watcher_iter_summary expired w h)
      as (f & evs & E & F & C1 & C2 & C3 & C4 & C5).
    rewrite E, ticks_cons. destruct f as [expired'|].
    + destruct (IH expired' (h ++ evs))
        as (st & evs' & E' & F' & D1 & D2 & D3 & D4 & D5).
      exists st, (evs ++ evs'). rewrite E', app_assoc, !count_app.
      repeat split; try lia.
      * apply Forall_app. split; assumption.
      * intros -> NI.
        assert (W : w = FromTick).
        { destruct w; [|reflexivity]. contradiction NI. left. reflexivity. }
        destruct (C5 eq_refl W) as [R0 K]. rewrite R0.
        rewrite (K expired' eq_refl) in D5. apply D5; [reflexivity|].
        intros I. apply NI. right. exact I.
    + exists Returned, evs. repeat split; try assumption; try lia.
      intros -> NI.
      assert (W : w = FromTick).
      { destruct w; [|reflexivity]. contradiction NI. left. reflexivity. }
      apply (C5 eq_refl W).
Qed.

End WatcherRuns.



(** X5.  In every run of a watcher there are at most as many [OnSucess]
    calls as reactions removed, at most as many reactions removed as
    listings, and at most one listing per tick. *)
Theorem watcher_call_counts
    (d : Discord) (ctx : WatchContext) (opt : Option)
    (ses : discordgo.Session) (msg : discordgo.Message)
    (wakeups : list Wakeup) :
  Session ctx = Some ses ->
  Message ctx = Some msg ->
  exists st t,
    watcher d ctx opt wakeups [] = (Val st, t) /\
    (count is_OnSucess t <= count is_ReactionRemove t)%nat /\
    (count is_ReactionRemove t <= count is_poll t)%nat /\
    (count is_poll t <= ticks wakeups)%nat.
Proof.
  intros Hs Hm.
  destruct (watcher_loop_summary d ctx opt ses msg Hs Hm wakeups false [])
    as (st & evs & E & _ & C1 & C2 & C3 & _).
  exists st, evs. repeat split; assumption.
Qed.

Lemma watcher_call_counts_witness :
  exists st t,
    watcher Sample.busy Sample.ctx Sample.yes
      [FromTick; FromExpiration; FromTick] [] = (Val st, t) /\
    (count is_OnSucess t <= count is_ReactionRemove t)%nat /\
    (count is_ReactionRemove t <= count is_poll t)%nat /\
    (count is_poll t <= ticks [FromTick; FromExpiration; FromTick])%nat.
Proof.
  apply (watcher_call_counts Sample.busy Sample.ctx Sample.yes
           Sample.ses Sample.msg [FromTick; FromExpiration; FromTick]).
  - reflexivity.
  - reflexivity.
Defined.

(** X6.  A watcher that has returned has made exactly one final call, an
    [OnError] call or the clearing of the reactions, never both; a watcher
    still in its [select] has made neither. *)
Theorem watcher_returns_after_one_final_call
    (d : Discord) (ctx : WatchContext) (opt : Option)
    (ses : discordgo.Session) (msg : discordgo.Message)
    (wakeups : list Wakeup) :
  Session ctx = Some ses ->
  Message ctx = Some msg ->
  exists st t,
    watcher d ctx opt wakeups [] = (Val st, t) /\
    (count is_OnError t + count is_RemoveAll t)%nat =
      match st with Returned => 1%nat | Selecting _ => 0%nat end.
Proof.
  intros Hs Hm.
  destruct (watcher_loop_summary d ctx opt ses msg Hs Hm wakeups false [])
    as (st & evs & E & _ & _ & _ & _ & C & _).
  exists st, evs. split; assumption.
Qed.

Lemma watcher_returns_after_one_final_call_witness :
  exists st t,
    watcher Sample.down Sample.ctx Sample.yes [FromTick; FromTick] []
      = (Val st, t) /\
    (count is_OnError t + count is_RemoveAll t)%nat =
      match st with Returned => 1%nat | Selecting _ => 0%nat end.
Proof.
  apply (watcher_returns_after_one_final_call Sample.down Sample.ctx
           Sample.yes Sample.ses Sample.msg [FromTick; FromTick]).
  - reflexivity.
  - reflexivity.
Defined.

(** X7.  A watcher whose expiration has not fired never clears the
    reactions of the message, however many ticks it gets and whatever its
    polls find. *)
Theorem watcher_no_cleanup_before_expiration
    (d : Discord) (ctx : WatchContext) (opt : Option)
    (ses : discordgo.Session) (msg : discordgo.Message)
    (wakeups : list Wakeup) :
  Session ctx = Some ses ->
  Message ctx = Some msg ->
  ~ In FromExpiration wakeups ->
  exists st t,
    watcher d ctx opt wakeups [] = (Val st, t) /\
    count is_RemoveAll t = 0%nat.
Proof.
  intros Hs Hm NI.
  destruct (watcher_loop_summary d ctx opt ses msg Hs Hm wakeups false [])
    as (st & evs & E & _ & _ & _ & _ & _ & C).
  exists st, evs. split; [exact E|]. apply C; [reflexivity|exact NI].
Qed.

Lemma watcher_no_cleanup_before_expiration_witness :
  exists st t,
    watcher Sample.busy Sample.ctx Sample.yes [FromTick; FromTick] []
      = (Val st, t) /\
    count is_RemoveAll t = 0%nat.
Proof.
  apply (watcher_no_cleanup_before_expiration Sample.busy Sample.ctx
           Sample.yes Sample.ses Sample.msg [FromTick; FromTick]).
  - reflexivity.
  - reflexivity.
  - simpl. intros [E|[E|[]]]; discriminate E.
Defined.

(** [n] ticks during which nobody but the bot has reacted. *)
Lemma watcher_quiet_ticks
    (d : Discord) (ctx : WatchContext) (opt : Option)
    (ses : discordgo.Session) (msg : discordgo.Message) :
  Session ctx = Some ses ->
  Message ctx = Some msg ->
  (forall h, exists users,
     reply_Reactions d h (ChannelID msg) (Message_ID msg) (Emoji opt)
       (ReactionLimit opt) = (users, None) /\
     Forall (is_self ses) users) ->
  forall (n : nat) (h : Trace),
    watcher_loop d ctx opt false (repeat FromTick n) h =
    (Val (Selecting false),
     h ++ repeat (Reactions (ChannelID msg) (Message_ID msg) (Emoji opt)
                    (ReactionLimit opt)) n).
Proof.
  intros Hs Hm Q. induction n as [|n IH]; intros h.
  - simpl. rewrite app_nil_r. reflexivity.
  - cbn [repeat watcher_loop]. unfold bind.
    rewrite (watcher_iter_poll d ctx opt ses msg Hs Hm).
    destruct (Q h) as (users & L & F).
    rewrite (poll_listed d ses _ _ opt users h L).
    rewrite (poll_range_only_self d ses _ _ opt users _ F).
    change (User_eqb zeroUser zeroUser) with true. cbn iota.
    rewrite IH, <- app_assoc. reflexivity.
Qed.

(** X8.  If every listing succeeds and shows nobody but the bot, a watcher
    that gets [n] ticks, then its expiration, then a tick, has listed the
    reactors [n] times, then cleared the reactions, and has returned; it has
    called neither callback and removed no single reaction. *)
Theorem watcher_quiet_run
    (d : Discord) (ctx : WatchContext) (opt : Option)
    (ses : discordgo.Session) (msg : discordgo.Message)
    (n : nat) (later : list Wakeup) :
  Session ctx = Some ses ->
  Message ctx = Some msg ->
  (forall h, exists users,
     reply_Reactions d h (ChannelID msg) (Message_ID msg) (Emoji opt)
       (ReactionLimit opt) = (users, None) /\
     Forall (is_self ses) users) ->
  watcher d ctx opt
    (repeat FromTick n ++ FromExpiration :: FromTick :: later) [] =
  (Val Returned,
   repeat (Reactions (ChannelID msg) (Message_ID msg) (Emoji opt)
             (ReactionLimit opt)) n
   ++ [ReactionsRemoveAll (ChannelID msg) (Message_ID msg)]).
Proof.
  intros Hs Hm Q. unfold watcher.
  rewrite watcher_loop_app, (watcher_quiet_ticks d ctx opt ses msg Hs Hm Q).
  cbn [watcher_loop app]. unfold bind.
  change (watcher_iter d ctx opt false FromExpiration ?t)
    with (@Val Flow (Continue true), t).
  cbn iota beta.
  rewrite (watcher_iter_expired d ctx opt ses msg Hs Hm). reflexivity.
Qed.

Lemma watcher_quiet_run_witness :
  watcher Sample.quiet Sample.ctx Sample.yes
    (repeat FromTick 2 ++ FromExpiration :: FromTick :: [FromTick]) [] =
  (Val Returned,
   repeat (Reactions "c1" "m1" "Y" 10) 2 ++ [ReactionsRemoveAll "c1" "m1"]).
Proof.
  apply (watcher_quiet_run Sample.quiet Sample.ctx Sample.yes
           Sample.ses Sample.msg 2 [FromTick]).
  - reflexivity.
  - reflexivity.
  - intros h. exists [Sample.bot]. split; [reflexivity|].
    repeat constructor.
Defined.

(** X9.  [OnSucess] is called on every tick that finds a user: if each
    listing succeeds and shows a reactor other than the bot (not the zero
    user) whose reaction Discord then lets the bot remove, a watcher that
    gets [n] ticks is still in its [select] and has listed the reactors,
    removed a reaction and called [OnSucess] [n] times each. *)
Theorem watcher_success_on_every_tick
    (d : Discord) (ctx : WatchContext) (opt : Option)
    (ses : discordgo.Session) (msg : discordgo.Message) (n : nat) :
  Session ctx = Some ses ->
  Message ctx = Some msg ->
  (forall h, exists bots u rest,
     reply_Reactions d h (ChannelID msg) (Message_ID msg) (Emoji opt)
       (ReactionLimit opt) = (bots ++ u :: rest, None) /\
     Forall (is_self ses) bots /\ ~ is_self ses u /\ u <> zeroUser /\
     reply_ReactionRemove d
       (h ++ [Reactions (ChannelID msg) (Message_ID msg) (Emoji opt)
                (ReactionLimit opt)])
       (ChannelID msg) (Message_ID msg) (Emoji opt) (ID u) = None) ->
  exists t,
    watcher d ctx opt (repeat FromTick n) [] = (Val (Selecting false), t) /\
    count is_poll t = n /\
    count is_ReactionRemove t = n /\
    count is_OnSucess t = n.
Proof.
  intros Hs Hm B. unfold watcher.
  assert (G : forall h, exists evs,
            watcher_loop d ctx opt false (repeat FromTick n) h
              = (Val (Selecting false), h ++ evs) /\
            count is_poll evs = n /\
            count is_ReactionRemove evs = n /\
            count is_OnSucess evs = n).
  { induction n as [|n IH]; intros h.
    - exists []. simpl. rewrite app_nil_r. repeat split.
    - cbn [repeat watcher_loop]. unfold bind.
      rewrite (watcher_iter_poll d ctx opt ses msg Hs Hm).
      destruct (B h) as (bots & u & rest & L & F & N & Z & R).
      rewrite (poll_listed d ses _ _ opt _ h L).
      rewrite poll_range_self by exact F.
      rewrite poll_range_other by exact N.
      rewrite R.
      destruct (User_eqb zeroUser u) eqn:Zb.
      + apply User_eqb_eq in Zb. congruence.
      + match goal with
        | |- context [watcher_loop d ctx opt false (repeat FromTick n) ?t] =>
            destruct (IH t) as (evs & E & C1 & C2 & C3)
        end.
        rewrite E. eexists. rewrite <- !app_assoc.
        split; [reflexivity|].
        rewrite !count_app, !count_one, C1, C2, C3. simpl.
        repeat split. }
  destruct (G []) as (evs & E & C). exists evs. split; [exact E|exact C].
Qed.

Lemma watcher_success_on_every_tick_witness :
  exists t,
    watcher Sample.busy Sample.ctx Sample.yes (repeat FromTick 3) []
      = (Val (Selecting false), t) /\
    count is_poll t = 3%nat /\
    count is_ReactionRemove t = 3%nat /\
    count is_OnSucess t = 3%nat.
Proof.
  apply (watcher_success_on_every_tick Sample.busy Sample.ctx Sample.yes
           Sample.ses Sample.msg 3).
  - reflexivity.
  - reflexivity.
  - intros h. exists [Sample.bot], Sample.userA, [Sample.userB].
    repeat split.
    + repeat constructor.
    + unfold is_self. simpl. discriminate.
    + discriminate.
Defined.

(** X10.  The zero [discordgo.User] cannot be reported.  When the first
    listed reactor that is not the bot has the zero record (the bot's own ID
    not being empty), the tick removes that reactor's reaction and then
    calls no callback: the watcher goes on as if nobody had reacted. *)
Theorem watcher_zero_user_silent
    (d : Discord) (ctx : WatchContext) (opt : Option)
    (ses : discordgo.Session) (msg : discordgo.Message)
    (bots rest : list discordgo.User) (later : list Wakeup) (h : Trace) :
  let h1 := h ++ [Reactions (ChannelID msg) (Message_ID msg) (Emoji opt)
                    (ReactionLimit opt)] in
  let h2 := h1 ++ [ReactionRemove (ChannelID msg) (Message_ID msg)
                     (Emoji opt) ""] in
  Session ctx = Some ses ->
  Message ctx = Some msg ->
  State_User_ID ses <> "" ->
  reply_Reactions d h (ChannelID msg) (Message_ID msg) (Emoji opt)
    (ReactionLimit opt) = (bots ++ zeroUser :: rest, None) ->
  Forall (is_self ses) bots ->
  reply_ReactionRemove d h1 (ChannelID msg) (Message_ID msg) (Emoji opt) ""
    = None ->
  watcher_loop d ctx opt false (FromTick :: later) h =
  watcher_loop d ctx opt false later h2.
Proof.
  intros h1 h2 Hs Hm NE L F R.
  cbn [watcher_loop]. unfold bind.
  rewrite (watcher_iter_poll d ctx opt ses msg Hs Hm).
  rewrite (poll_listed d ses _ _ opt _ h L).
  rewrite poll_range_self by exact F.
  rewrite poll_range_other
    by (unfold is_self; simpl; intros E; apply NE; symmetry; exact E).
  fold h1. change (ID zeroUser) with "". rewrite R. reflexivity.
Qed.

Lemma watcher_zero_user_silent_witness :
  watcher_loop (Sample.steady ([Sample.bot; zeroUser], None) None None)
    Sample.ctx Sample.yes false (FromTick :: []) [] =
  watcher_loop (Sample.steady ([Sample.bot; zeroUser], None) None None)
    Sample.ctx Sample.yes false []
    (([] ++ [Reactions "c1" "m1" "Y" 10]) ++
     [ReactionRemove "c1" "m1" "Y" ""]).
Proof.
  apply (watcher_zero_user_silent
           (Sample.steady ([Sample.bot; zeroUser], None) None None)
           Sample.ctx Sample.yes Sample.ses Sample.msg [Sample.bot] [] [] []).
  - reflexivity.
  - reflexivity.
  - discriminate.
  - reflexivity.
  - repeat constructor.
  - reflexivity.
Defined.

(** ** Add, whatever Discord answers *)

Lemma Add_range_cons (d : Discord) (ctx : WatchContext)
    (ses : discordgo.Session) (msg : discordgo.Message)
    (v : Option) (options : list Option) (h : Trace) :
  Session ctx = Some ses ->
  Message ctx = Some msg ->
  Add_range d ctx (v :: options) h =
  match reply_ReactionAdd d h (ChannelID msg) (Message_ID msg) (Emoji v) with
  | Some _ =>
      (Val (Some (Errorf
         "can't add reaction to message %q. Was that a unicode emoji?"
         [Message_ID msg])),
       h ++ [ReactionAdd (ChannelID msg) (Message_ID msg) (Emoji v)])
  | None =>
      Add_range d ctx options
        (h ++ [ReactionAdd (ChannelID msg) (Message_ID msg) (Emoji v);
               GoWatcher ctx v])
  end.
Proof.
  intros Hs Hm. cbn [Add_range]. rewrite Hs, Hm.
  unfold bind, deref, MessageReactionAdd, emit, ret.
  destruct (reply_ReactionAdd d h (ChannelID msg) (Message_ID msg)
              (Emoji v)); [reflexivity|].
  rewrite <- app_assoc. reflexivity.
Qed.

Lemma Add_range_outcomes (d : Discord) (ctx : WatchContext)
    (ses : discordgo.Session) (msg : discordgo.Message)
    (options : list Option) (h : Trace) :
  Session ctx = Some ses ->
  Message ctx = Some msg ->
  Add_range d ctx options h = (Val None, h ++ launched ctx msg options) \/
  exists done v rest,
    options = done ++ v :: rest /\
    reply_ReactionAdd d (h ++ launched ctx msg done)
      (ChannelID msg) (Message_ID msg) (Emoji v) <> None /\
    Add_range d ctx options h =
      (Val (Some (Errorf
         "can't add reaction to message %q. Was that a unicode emoji?"
         [Message_ID msg])),
       h ++ launched ctx msg done ++
       [ReactionAdd (ChannelID msg) (Message_ID msg) (Emoji v)]).
Proof.
  intros Hs Hm. revert h. induction options as [|v options IH]; intros h.
  - left. simpl. rewrite app_nil_r. reflexivity.
  - rewrite (Add_range_cons d ctx ses msg v options h Hs Hm).
    destruct (reply_ReactionAdd d h (ChannelID msg) (Message_ID msg)
                (Emoji v)) as [e|] eqn:R.
    + right. exists [], v, options. simpl. rewrite app_nil_r.
      repeat split. rewrite R. discriminate.
    + destruct (IH (h ++ [ReactionAdd (ChannelID msg) (Message_ID msg)
                            (Emoji v); GoWatcher ctx v]))
        as [E|(done & w & rest & -> & N & E)]; rewrite E.
      * left. simpl. rewrite <- app_assoc. reflexivity.
      * right. exists (v :: done), w, rest. simpl.
        rewrite <- !app_assoc in *. simpl in *.
        repeat split. exact N.
Qed.

(** X11.  On a context with a message and a session, [Add] never panics
    and ends in one of three ways, whatever Discord answers:
    - no option given: the error "no emoji options specified", nothing done;
    - nil: every option, in order, has its reaction attached and then its
      watcher started;
    - the error "can't add reaction ..." naming the message: the options
      [done] before the first refused one [v] have their reaction and their
      watcher, the reaction of [v] was asked for and nothing after it.
    The error Discord gave for the refusal is never the one returned. *)
Theorem Add_outcomes
    (d : Discord) (ctx : WatchContext)
    (ses : discordgo.Session) (msg : discordgo.Message)
    (options : list Option) (h : Trace) :
  Session ctx = Some ses ->
  Message ctx = Some msg ->
  (options = [] /\
   Add d ctx options h =
     (Val (Some (Errorf "no emoji options specified" [])), h)) \/
  (options <> [] /\
   Add d ctx options h = (Val None, h ++ launched ctx msg options)) \/
  (exists done v rest,
     options = done ++ v :: rest /\
     reply_ReactionAdd d (h ++ launched ctx msg done)
       (ChannelID msg) (Message_ID msg) (Emoji v) <> None /\
     Add d ctx options h =
       (Val (Some (Errorf
          "can't add reaction to message %q. Was that a unicode emoji?"
          [Message_ID msg])),
        h ++ launched ctx msg done ++
        [ReactionAdd (ChannelID msg) (Message_ID msg) (Emoji v)])).
Proof.
  intros Hs Hm. destruct options as [|v options].
  - left. split; reflexivity.
  - right. unfold Add. cbn [List.length Nat.eqb].
    destruct (Add_range_outcomes d ctx ses msg (v :: options) h Hs Hm)
      as [E|X].
    + left. split; [discriminate|exact E].
    + right. exact X.
Qed.

Lemma Add_outcomes_witness :
  ([Sample.yes; Sample.bad; Sample.no] = [] /\
   Add Sample.busy Sample.ctx [Sample.yes; Sample.bad; Sample.no] [] =
     (Val (Some (Errorf "no emoji options specified" [])), [])) \/
  ([Sample.yes; Sample.bad; Sample.no] <> [] /\
   Add Sample.busy Sample.ctx [Sample.yes; Sample.bad; Sample.no] [] =
     (Val None,
      [] ++ launched Sample.ctx Sample.msg
              [Sample.yes; Sample.bad; Sample.no])) \/
  (exists done v rest,
     [Sample.yes; Sample.bad; Sample.no] = done ++ v :: rest /\
     reply_ReactionAdd Sample.busy ([] ++ launched Sample.ctx Sample.msg done)
       (ChannelID Sample.msg) (Message_ID Sample.msg) (Emoji v) <> None /\
     Add Sample.busy Sample.ctx [Sample.yes; Sample.bad; Sample.no] [] =
       (Val (Some (Errorf
          "can't add reaction to message %q. Was that a unicode emoji?"
          [Message_ID Sample.msg])),
        [] ++ launched Sample.ctx Sample.msg done ++
        [ReactionAdd (ChannelID Sample.msg) (Message_ID Sample.msg)
           (Emoji v)])).
Proof.
  apply (Add_outcomes Sample.busy Sample.ctx Sample.ses Sample.msg
           [Sample.yes; Sample.bad; Sample.no] []).
  - reflexivity.
  - reflexivity.
Defined.

(** X12.  Going on after a rejected [NewWatcher]: the context it returns
    beside its error has no message, so [Add] on it with at least one option
    panics on its first option, before any call to Discord and before any
    watcher is started. *)
Theorem Add_on_rejected_context_panics
    (d : Discord) (message : ptr discordgo.Message)
    (session : ptr discordgo.Session) (tickRate : Z) (data : any)
    (ctx : WatchContext) (v : Option) (options : list Option) (h : Trace) :
  snd (NewWatcher message session tickRate data) <> None ->
  fst (NewWatcher message session tickRate data) = Some ctx ->
  Add d ctx (v :: options) h = (Panic, h).
Proof.
  unfold NewWatcher. destruct (tickRate =? 0); simpl.
  - intros _ E. injection E as <-. reflexivity.
  - intros N. contradiction N. reflexivity.
Qed.

Lemma Add_on_rejected_context_panics_witness :
  Add Sample.busy zeroWatchContext (Sample.yes :: [Sample.no]) [] =
    (Panic, []).
Proof.
  apply (Add_on_rejected_context_panics Sample.busy (Some Sample.msg)
           (Some Sample.ses) 0 None zeroWatchContext Sample.yes [Sample.no]
           []).
  - simpl. discriminate.
  - reflexivity.
Defined.
